(** * The table sizing hook [useTableSizer]

    A shallow embedding of
    [frontend/src/components/widgets/DataFrame/hooks/useTableSizer.ts]
    and the properties of its size policy and of its three layout effects.

    Numbers.  Every quantity the hook computes with is a pixel count or a
    row count.  They are modelled as [Z]: on integers below 2^53 the
    arithmetic of JavaScript numbers is exact, and [Math.max] / [Math.min]
    are [Z.max] / [Z.min].

    Optional values.  A TypeScript [number | undefined] is an [option Z].
    The hook never tests such a value for presence; it tests its
    truthiness, which also rejects [0].  [Js.truthy] and [Js.asTruthy]
    keep that distinction visible. *)

From Stdlib Require Import ZArith String Bool Lia.

Local Open Scope Z_scope.

(* ------------------------------------------------------------------ *)
(** ** The fragments of JavaScript the hook relies on *)

Module Js.

(** Truthiness of a [number | undefined]: [undefined] and [0] are falsy. *)
Definition truthy (v : option Z) : bool :=
  match v with
  | Some n => negb (n =? 0)
  | None => false
  end.

(** The number carried by a truthy value: what the body of
    [if (v) { ... v ... }] reads. *)
Definition asTruthy (v : option Z) : option Z :=
  match v with
  | Some n => if n =? 0 then None else Some n
  | None => None
  end.

(** Truthiness of a [boolean | undefined]. *)
Definition truthyBool (v : option bool) : bool :=
  match v with
  | Some b => b
  | None => false
  end.

(** Truthiness of an object reference that may be [null]. *)
Definition truthyRef {A : Type} (v : option A) : bool :=
  match v with
  | Some _ => true
  | None => false
  end.

End Js.

(** Modelled from the spec: [notNullOrUndefined] is imported from
    [src/lib/utils], which is not among the sources.  The spec reads
    [notNullOrUndefined(element.width) && element.width > 0] as
    "configuredWidth present AND > 0", so the helper is presence. *)
Definition notNullOrUndefined {A : Type} (v : option A) : bool :=
  match v with
  | Some _ => true
  | None => false
  end.

(* ------------------------------------------------------------------ *)
(** ** Data *)

(** Modelled from the spec: the generated protobuf class [ArrowProto]
    ([src/autogen/proto]) is not among the sources.  The spec lists the
    edit modes as [STATIC, DYNAMIC, ...]; the hook only ever compares with
    [DYNAMIC], so every further mode is kept as an uninterpreted tag. *)
Inductive EditingMode : Type :=
| STATIC
| DYNAMIC
| OTHER_MODE (tag : nat).

Definition isDynamic (m : EditingMode) : bool :=
  match m with
  | DYNAMIC => true
  | _ => false
  end.

(** Modelled from the spec: the fields of [ArrowProto] the hook reads
    (the spec's display descriptor: configured width and height, the
    "use full container width" flag and the edit mode). *)
Module ArrowProto.
Record t : Type := mk
  { editingMode : EditingMode;
    height : option Z;
    width : option Z;
    useContainerWidth : bool }.
End ArrowProto.

(** [React.RefObject<T>]: [current] is [null] until the component mounts. *)
Record RefObject (T : Type) : Type := mkRef { current : option T }.
Arguments mkRef {T} _.
Arguments current {T} _.

(** The resizable container behind the ref; the hook only tests the ref
    for [null], so the instance carries nothing. *)
Inductive Resizable : Type := ResizableInstance.

(** One side of re-resizable's [Size]: [string | number]. *)
Inductive SizeValue : Type :=
| Px (n : Z)
| Css (s : string).

Module ResizableSize.
Record t : Type := mk
  { width : SizeValue;
    height : SizeValue }.
End ResizableSize.

(** [interface Props] *)
Record Props : Type := mkProps
  { element : ArrowProto.t;
    resizableRef : RefObject Resizable;
    numRows : Z;
    containerWidth : Z;
    containerHeight : option Z;
    isFullScreen : option bool }.

(* ------------------------------------------------------------------ *)
(** ** Constants *)

Definition ROW_HEIGHT : Z := 35.
Definition MIN_COLUMN_WIDTH : Z := 35.
Definition MIN_TABLE_WIDTH : Z := MIN_COLUMN_WIDTH + 3.
Definition MIN_TABLE_HEIGHT : Z := 2 * ROW_HEIGHT + 3.
Definition DEFAULT_TABLE_HEIGHT : Z := 400.

(** The sentinel width: the table fills its container. *)
Definition FILL : string := "100%"%string.

(* ------------------------------------------------------------------ *)
(** ** The size policy: lines 75-118 of the hook *)

(** The local variables of the hook once the policy part has run. *)
Module Bounds.
Record t : Type := mk
  { maxHeight : Z;
    initialHeight : Z;
    initialWidth : option Z;
    maxWidth : Z }.
End Bounds.

(** Lines 75-83: the first value of [maxHeight], derived from the row
    count and the edit mode alone. *)
Definition naturalMaxHeight (element : ArrowProto.t) (numRows : Z) : Z :=
  Z.max
    ((numRows + 1) * ROW_HEIGHT
     + 1
     + 2
     + (if isDynamic (ArrowProto.editingMode element) then ROW_HEIGHT else 0))
    MIN_TABLE_HEIGHT.

(** Lines 85-103: [(initialHeight, maxHeight)]. *)
Definition heights (element : ArrowProto.t) (numRows : Z)
                   (containerHeight : option Z) : Z * Z :=
  let maxHeight := naturalMaxHeight element numRows in
  let initialHeight := Z.min maxHeight DEFAULT_TABLE_HEIGHT in
  let '(initialHeight, maxHeight) :=
    match Js.asTruthy (ArrowProto.height element) with
    | Some h => (Z.max h MIN_TABLE_HEIGHT, Z.max h maxHeight)
    | None => (initialHeight, maxHeight)
    end in
  match Js.asTruthy containerHeight with
  | Some c =>
      let initialHeight := Z.min initialHeight c in
      let maxHeight := Z.min maxHeight c in
      if negb (Js.truthy (ArrowProto.height element))
      then (maxHeight, maxHeight)
      else (initialHeight, maxHeight)
  | None => (initialHeight, maxHeight)
  end.

(** Lines 105-118: [(initialWidth, maxWidth)]. *)
Definition widths (element : ArrowProto.t) (containerWidth : Z)
  : option Z * Z :=
  let initialWidth : option Z := None in
  let maxWidth := containerWidth in
  if ArrowProto.useContainerWidth element then
    (Some containerWidth, maxWidth)
  else
    match Js.asTruthy (ArrowProto.width element) with
    | Some w =>
        (Some (Z.min (Z.max w MIN_TABLE_WIDTH) containerWidth),
         Z.min (Z.max w maxWidth) containerWidth)
    | None => (initialWidth, maxWidth)
    end.

Definition computeBounds (p : Props) : Bounds.t :=
  let '(initialHeight, maxHeight) :=
    heights (element p) (numRows p) (containerHeight p) in
  let '(initialWidth, maxWidth) :=
    widths (element p) (containerWidth p) in
  {| Bounds.maxHeight := maxHeight;
     Bounds.initialHeight := initialHeight;
     Bounds.initialWidth := initialWidth;
     Bounds.maxWidth := maxWidth |}.

(* ------------------------------------------------------------------ *)
(** ** The state and the three layout effects: lines 120-167 *)

(** [initialWidth || "100%"]: an undefined or zero width gives the
    sentinel. *)
Definition orFill (w : option Z) : SizeValue :=
  match Js.asTruthy w with
  | Some n => Px n
  | None => Css FILL
  end.

(** [v === "100%"] *)
Definition isFill (v : SizeValue) : bool :=
  match v with
  | Css s => String.eqb s FILL
  | Px _ => false
  end.

(** The argument of [React.useState]. *)
Definition initialSize (p : Props) : ResizableSize.t :=
  let b := computeBounds p in
  {| ResizableSize.width := orFill (Bounds.initialWidth b);
     ResizableSize.height := Px (Bounds.initialHeight b) |}.

(** An effect either calls [setResizableSize] with a new size ([Some]) or
    returns without calling it ([None]).  Every effect reads
    [resizableSize] as it was at the render the effect belongs to. *)
Definition Effect : Type := Props -> ResizableSize.t -> option ResizableSize.t.

(** Lines 125-138, dependency [containerWidth]. *)
Definition containerWidthEffect : Effect := fun p resizableSize =>
  if Js.truthyRef (current (resizableRef p))
     && ArrowProto.useContainerWidth (element p)
     && isFill (ResizableSize.width resizableSize)
  then Some {| ResizableSize.width := Px (containerWidth p);
               ResizableSize.height := ResizableSize.height resizableSize |}
  else None.

(** Lines 140-148, dependency [numRows]. *)
Definition numRowsEffect : Effect := fun p resizableSize =>
  if Js.truthyRef (current (resizableRef p))
  then Some {| ResizableSize.width := ResizableSize.width resizableSize;
               ResizableSize.height :=
                 Px (Bounds.initialHeight (computeBounds p)) |}
  else None.

(** Line 153-155 *)
Definition stretchColumns (element : ArrowProto.t) : bool :=
  ArrowProto.useContainerWidth element
  || (notNullOrUndefined (ArrowProto.width element)
      && match ArrowProto.width element with
         | Some w => 0 <? w
         | None => false
         end).

(** Lines 150-167, dependency [isFullScreen]. *)
Definition fullScreenEffect : Effect := fun p _ =>
  let b := computeBounds p in
  if Js.truthyRef (current (resizableRef p)) then
    if Js.truthyBool (isFullScreen p) then
      Some {| ResizableSize.width :=
                if stretchColumns (element p)
                then Px (Bounds.maxWidth b) else Css FILL;
              ResizableSize.height := Px (Bounds.maxHeight b) |}
    else
      Some {| ResizableSize.width := orFill (Bounds.initialWidth b);
              ResizableSize.height := Px (Bounds.initialHeight b) |}
  else None.

(** The state after an effect has run: the size it set, or the old one. *)
Definition settle (e : Effect) (p : Props) (s : ResizableSize.t)
  : ResizableSize.t :=
  match e p s with
  | Some s' => s'
  | None => s
  end.

(** Which dependencies differ from the previous render. *)
Record Changed : Type := mkChanged
  { containerWidthChanged : bool;
    numRowsChanged : bool;
    isFullScreenChanged : bool }.

(** One commit: the effects whose dependency changed run in source order,
    all of them on the size of this render; of several calls to
    [setResizableSize] the last one is the next state. *)
Definition commit (d : Changed) (p : Props) (s : ResizableSize.t)
  : ResizableSize.t :=
  let pick (on : bool) (e : Effect) (acc : option ResizableSize.t) :=
    if on then match e p s with Some s' => Some s' | None => acc end
    else acc in
  let acc := pick (containerWidthChanged d) containerWidthEffect None in
  let acc := pick (numRowsChanged d) numRowsEffect acc in
  let acc := pick (isFullScreenChanged d) fullScreenEffect acc in
  match acc with
  | Some s' => s'
  | None => s
  end.

(** [type AutoSizerReturn]; the setter is the state transition itself and
    is not a field here. *)
Module AutoSizerReturn.
Record t : Type := mk
  { rowHeight : Z;
    minHeight : Z;
    maxHeight : Z;
    minWidth : Z;
    maxWidth : Z;
    resizableSize : ResizableSize.t }.
End AutoSizerReturn.

(** What one render of the hook returns, given the current state. *)
Definition useTableSizer (p : Props) (resizableSize : ResizableSize.t)
  : AutoSizerReturn.t :=
  let b := computeBounds p in
  {| AutoSizerReturn.rowHeight := ROW_HEIGHT;
     AutoSizerReturn.minHeight := MIN_TABLE_HEIGHT;
     AutoSizerReturn.maxHeight := Bounds.maxHeight b;
     AutoSizerReturn.minWidth := MIN_TABLE_WIDTH;
     AutoSizerReturn.maxWidth := Bounds.maxWidth b;
     AutoSizerReturn.resizableSize := resizableSize |}.

(* ------------------------------------------------------------------ *)
(** ** Sample inputs *)

Definition mounted : RefObject Resizable := mkRef (Some ResizableInstance).
Definition unmounted : RefObject Resizable := mkRef (@None Resizable).

Definition plainElement (m : EditingMode) : ArrowProto.t :=
  ArrowProto.mk m None None false.

(** Scenario A of the spec: five rows, static, 800 wide, nothing
    configured, no container height. *)
Definition scenarioA : Props :=
  mkProps (plainElement STATIC) mounted 5 800 None (Some false).

Definition scenarioB : Props :=
  mkProps (plainElement DYNAMIC) mounted 5 800 None (Some false).

Definition scenarioC : Props :=
  mkProps (ArrowProto.mk STATIC (Some 500) None false) mounted 5 800 None
          (Some false).

(** Scenario D: full screen, container 1200 x 600, full container width. *)
Definition scenarioD : Props :=
  mkProps (ArrowProto.mk STATIC None None true) mounted 5 1200 (Some 600)
          (Some true).

(** Scenario E: the render after leaving full screen again. *)
Definition scenarioE : Props :=
  mkProps (ArrowProto.mk STATIC None None true) mounted 5 1200 None
          (Some false).

(** A bounded container lower than the minimum table height. *)
Definition lowContainer : Props :=
  mkProps (plainElement STATIC) mounted 5 800 (Some 50) (Some true).

(** A configured width of 1000 in a container 800 wide. *)
Definition wideElement : Props :=
  mkProps (ArrowProto.mk STATIC None (Some 1000) false) mounted 5 800 None
          (Some false).

(** The floor the initial height never goes below: the minimum table
    height, lowered to the container height when a bounded container is
    smaller than that. *)
Definition initialHeightFloor (p : Props) : Z :=
  match Js.asTruthy (containerHeight p) with
  | Some c => Z.min MIN_TABLE_HEIGHT c
  | None => MIN_TABLE_HEIGHT
  end.

(** Scenario D before the table view is mounted. *)
Definition scenarioD_unmounted : Props :=
  mkProps (ArrowProto.mk STATIC None None true) unmounted 5 1200 (Some 600)
          (Some true).

(** A container of width zero with [useContainerWidth] set. *)
Definition zeroWidthContainer : Props :=
  mkProps (ArrowProto.mk STATIC None None true) mounted 5 0 None
          (Some false).

(** The size of a table that fills its container, 213 pixels high. *)
Definition fillSize : ResizableSize.t :=
  ResizableSize.mk (Css FILL) (Px 213).

(** The size after the user dragged the table to 640 x 300. *)
Definition draggedSize : ResizableSize.t :=
  ResizableSize.mk (Px 640) (Px 300).

(** Twenty rows at full container width: in full screen (1200 x 600) and
    in the render after leaving it (800 wide, no container height). *)
Definition tallFullScreen : Props :=
  mkProps (ArrowProto.mk STATIC None None true) mounted 20 1200 (Some 600)
          (Some true).

Definition tallNormal : Props :=
  mkProps (ArrowProto.mk STATIC None None true) mounted 20 800 None
          (Some false).

(** The render after leaving full screen, before the view is mounted. *)
Definition tallNormal_unmounted : Props :=
  mkProps (ArrowProto.mk STATIC None None true) unmounted 20 800 None
          (Some false).

(** The size the twenty-row table has in full screen. *)
Definition tallFullSize : ResizableSize.t :=
  ResizableSize.mk (Px 1200) (Px 600).

(** A configured height of 500 in a full-screen container 300 high. *)
Definition configuredInLowContainer : Props :=
  mkProps (ArrowProto.mk STATIC (Some 500) None false) mounted 5 800
          (Some 300) (Some true).

(** [useContainerWidth] together with a configured width of 300. *)
Definition fullWidthConfigured : Props :=
  mkProps (ArrowProto.mk STATIC None (Some 300) true) mounted 5 800 None
          (Some false).

(** A table of one row under dynamic editing. *)
Definition oneRowDynamic : Props :=
  mkProps (plainElement DYNAMIC) mounted 1 800 None (Some false).

(** The size lies within what the policy of the same render allows: the
    width is the sentinel or a number of pixels up to the container width,
    the height a number of pixels up to the maximum height. *)
Definition sizeWithin (p : Props) (s : ResizableSize.t) : Prop :=
  (ResizableSize.width s = Css FILL
   \/ exists w, ResizableSize.width s = Px w /\ w <= containerWidth p)
  /\ exists h, ResizableSize.height s = Px h
               /\ h <= Bounds.maxHeight (computeBounds p).

(* ------------------------------------------------------------------ *)
(** ** Basic facts *)

Import ArrowProto.

Lemma asTruthy_Some (n : Z) : n <> 0 -> Js.asTruthy (Some n) = Some n.
Proof.
  intros Hn. unfold Js.asTruthy.
  destruct (Z.eqb_spec n 0) as [E | _]; [contradiction | reflexivity].
Qed.

Lemma asTruthy_falsy (v : option Z) :
  Js.truthy v = false -> Js.asTruthy v = None.
Proof.
  destruct v as [n |]; simpl; [| reflexivity].
  destruct (n =? 0); [reflexivity | discriminate].
Qed.

Lemma asTruthy_None (v : option Z) :
  Js.asTruthy v = None -> Js.truthy v = false.
Proof.
  destruct v as [n |]; simpl; [| reflexivity].
  destruct (n =? 0); [reflexivity | discriminate].
Qed.

Lemma asTruthy_inv (v : option Z) (n : Z) :
  Js.asTruthy v = Some n -> v = Some n /\ n <> 0 /\ Js.truthy v = true.
Proof.
  destruct v as [m |]; simpl; [| discriminate].
  destruct (Z.eqb_spec m 0) as [E | E]; [discriminate |].
  intros [= <-]. auto.
Qed.

Lemma truthy_Some (n : Z) : n <> 0 -> Js.truthy (Some n) = true.
Proof.
  intros Hn. simpl. destruct (Z.eqb_spec n 0); [contradiction | reflexivity].
Qed.

Lemma MIN_TABLE_HEIGHT_value : MIN_TABLE_HEIGHT = 73.
Proof. reflexivity. Qed.

Lemma MIN_TABLE_WIDTH_value : MIN_TABLE_WIDTH = 38.
Proof. reflexivity. Qed.

Lemma naturalMaxHeight_floor (e : ArrowProto.t) (n : Z) :
  MIN_TABLE_HEIGHT <= naturalMaxHeight e n.
Proof. unfold naturalMaxHeight. apply Z.le_max_r. Qed.

(** The two components of [heights], one case per combination of a
    truthy configured height and a truthy container height. *)
Lemma heights_plain (e : ArrowProto.t) (n : Z) (ch : option Z) :
  Js.truthy (height e) = false -> Js.truthy ch = false ->
  heights e n ch
  = (Z.min (naturalMaxHeight e n) DEFAULT_TABLE_HEIGHT, naturalMaxHeight e n).
Proof.
  intros Hh Hc. unfold heights.
  rewrite (asTruthy_falsy _ Hh), (asTruthy_falsy _ Hc). reflexivity.
Qed.

Lemma heights_configured (e : ArrowProto.t) (n h : Z) (ch : option Z) :
  Js.asTruthy (height e) = Some h -> Js.truthy ch = false ->
  heights e n ch
  = (Z.max h MIN_TABLE_HEIGHT, Z.max h (naturalMaxHeight e n)).
Proof.
  intros Hh Hc. unfold heights.
  rewrite Hh, (asTruthy_falsy _ Hc). reflexivity.
Qed.

Lemma heights_bounded (e : ArrowProto.t) (n c : Z) (ch : option Z) :
  Js.truthy (height e) = false -> Js.asTruthy ch = Some c ->
  heights e n ch
  = (Z.min (naturalMaxHeight e n) c, Z.min (naturalMaxHeight e n) c).
Proof.
  intros Hh Hc. unfold heights.
  rewrite (asTruthy_falsy _ Hh), Hc, Hh. reflexivity.
Qed.

Lemma heights_configured_bounded (e : ArrowProto.t) (n h c : Z)
                                 (ch : option Z) :
  Js.asTruthy (height e) = Some h -> Js.asTruthy ch = Some c ->
  heights e n ch
  = (Z.min (Z.max h MIN_TABLE_HEIGHT) c,
     Z.min (Z.max h (naturalMaxHeight e n)) c).
Proof.
  intros Hh Hc. unfold heights.
  destruct (asTruthy_inv _ _ Hh) as (_ & _ & Ht).
  rewrite Hh, Hc, Ht. reflexivity.
Qed.

Lemma computeBounds_heights (p : Props) :
  (Bounds.initialHeight (computeBounds p), Bounds.maxHeight (computeBounds p))
  = heights (element p) (numRows p) (containerHeight p).
Proof.
  unfold computeBounds.
  destruct (heights _ _ _) as [ih mh], (widths _ _) as [iw mw]. reflexivity.
Qed.

Lemma computeBounds_widths (p : Props) :
  (Bounds.initialWidth (computeBounds p), Bounds.maxWidth (computeBounds p))
  = widths (element p) (containerWidth p).
Proof.
  unfold computeBounds.
  destruct (heights _ _ _) as [ih mh], (widths _ _) as [iw mw]. reflexivity.
Qed.

(** Reading one local of the policy off the pair it is computed in. *)
Ltac bounds_of p :=
  pose proof (computeBounds_heights p) as Hheights;
  pose proof (computeBounds_widths p) as Hwidths.

Lemma widths_maxWidth (e : ArrowProto.t) (cw : Z) : snd (widths e cw) = cw.
Proof.
  unfold widths. destruct (useContainerWidth e); [reflexivity |].
  destruct (Js.asTruthy (width e)) as [w |]; simpl; lia.
Qed.

Lemma widths_initialWidth_nonzero (e : ArrowProto.t) (cw w : Z) :
  0 < cw -> fst (widths e cw) = Some w -> w <> 0.
Proof.
  unfold widths, MIN_TABLE_WIDTH, MIN_COLUMN_WIDTH. intros Hcw.
  destruct (useContainerWidth e); simpl.
  - intros [= <-]. lia.
  - destruct (Js.asTruthy (width e)) as [w0 |]; simpl; [| discriminate].
    intros [= <-]. lia.
Qed.

Lemma settle_fires (e : Effect) (p : Props) (s s' : ResizableSize.t) :
  e p s = Some s' -> settle e p s = s'.
Proof. unfold settle. intros ->. reflexivity. Qed.

Lemma settle_idle (e : Effect) (p : Props) (s : ResizableSize.t) :
  e p s = None -> settle e p s = s.
Proof. unfold settle. intros ->. reflexivity. Qed.

(** The scenarios of the spec, evaluated. *)
Example scenarioA_heights :
  Bounds.maxHeight (computeBounds scenarioA) = 213
  /\ Bounds.initialHeight (computeBounds scenarioA) = 213.
Proof. split; reflexivity. Qed.

Example scenarioC_heights :
  Bounds.maxHeight (computeBounds scenarioC) = 500
  /\ Bounds.initialHeight (computeBounds scenarioC) = 500.
Proof. split; reflexivity. Qed.

Example scenarioD_then_E :
  let full := settle fullScreenEffect scenarioD (initialSize scenarioE) in
  full = ResizableSize.mk (Px 1200) (Px 213)
  /\ settle fullScreenEffect scenarioE full = initialSize scenarioE.
Proof. split; reflexivity. Qed.

(* ------------------------------------------------------------------ *)
(** ** The size policy *)

(** C1.  For a row count of at least zero and any edit mode, the maximum
    height computed from the rows (lines 75-83) is
    [max ((rowCount + 1) * 35 + 3 + (35 if DYNAMIC else 0), 73)]: one row
    height per data row and one for the header, 3 pixels of slack, one more
    row height under dynamic editing, never below the minimum table height
    73.  It is the [maxHeight] the hook returns whenever neither a height is
    configured nor a container height is given. *)
Theorem maxHeight_row_formula (p : Props) (s : ResizableSize.t) :
  0 <= numRows p ->
  let dynamicRow :=
    match editingMode (element p) with DYNAMIC => 35 | _ => 0 end in
  let formula := Z.max ((numRows p + 1) * 35 + 3 + dynamicRow) 73 in
  naturalMaxHeight (element p) (numRows p) = formula
  /\ (Js.truthy (height (element p)) = false ->
      Js.truthy (containerHeight p) = false ->
      Bounds.maxHeight (computeBounds p) = formula
      /\ AutoSizerReturn.maxHeight (useTableSizer p s) = formula).
Proof.
  intros _ dynamicRow formula.
  assert (Hnat : naturalMaxHeight (element p) (numRows p) = formula).
  { subst formula dynamicRow.
    unfold naturalMaxHeight, MIN_TABLE_HEIGHT, ROW_HEIGHT.
    destruct (editingMode (element p)); simpl isDynamic; cbv iota; lia. }
  split; [exact Hnat |].
  intros Hh Hc. bounds_of p.
  rewrite (heights_plain _ _ _ Hh Hc) in Hheights.
  injection Hheights as _ Hmax.
  unfold useTableSizer; simpl. rewrite Hmax. auto.
Qed.

Lemma maxHeight_row_formula_witness :
  0 <= numRows scenarioB
  /\ naturalMaxHeight (element scenarioB) (numRows scenarioB) = 248
  /\ Bounds.maxHeight (computeBounds scenarioB) = 248.
Proof.
  assert (H : 0 <= numRows scenarioB) by (simpl; lia).
  pose proof (maxHeight_row_formula scenarioB (initialSize scenarioB) H)
    as [Hnat Hret].
  split; [exact H |].
  split; [exact Hnat |].
  exact (proj1 (Hret eq_refl eq_refl)).
Defined.

Lemma heights_ordered (e : ArrowProto.t) (n : Z) (ch : option Z) :
  fst (heights e n ch) <= snd (heights e n ch).
Proof.
  pose proof (naturalMaxHeight_floor e n) as Hfloor.
  destruct (Js.asTruthy (height e)) as [h |] eqn:Hh;
    destruct (Js.asTruthy ch) as [c |] eqn:Hc.
  - rewrite (heights_configured_bounded _ _ _ _ _ Hh Hc). simpl. lia.
  - rewrite (heights_configured _ _ _ _ Hh (asTruthy_None _ Hc)).
    simpl. lia.
  - rewrite (heights_bounded _ _ _ _ (asTruthy_None _ Hh) Hc). simpl. lia.
  - rewrite (heights_plain _ _ _ (asTruthy_None _ Hh) (asTruthy_None _ Hc)).
    simpl. lia.
Qed.

Lemma heights_floor (e : ArrowProto.t) (n : Z) (ch : option Z) :
  match Js.asTruthy ch with
  | Some c => Z.min MIN_TABLE_HEIGHT c
  | None => MIN_TABLE_HEIGHT
  end <= fst (heights e n ch).
Proof.
  pose proof (naturalMaxHeight_floor e n) as Hfloor.
  unfold heights.
  destruct (Js.asTruthy (height e)) as [h |];
    destruct (Js.asTruthy ch) as [c |];
    try destruct (negb (Js.truthy (height e)));
    simpl; unfold DEFAULT_TABLE_HEIGHT, MIN_TABLE_HEIGHT, ROW_HEIGHT in *; lia.
Qed.

(** C2, as the code has it.  For every input the initial height is at most
    the maximum height, and it is at least the minimum table height 73
    unless a container height below 73 is given: then the container height
    is the lower bound. *)
Theorem initialHeight_between (p : Props) :
  let b := computeBounds p in
  Bounds.initialHeight b <= Bounds.maxHeight b
  /\ initialHeightFloor p <= Bounds.initialHeight b
  /\ (initialHeightFloor p = 73
      \/ exists c, containerHeight p = Some c /\ c < 73
                   /\ initialHeightFloor p = c).
Proof.
  intros b. subst b. bounds_of p.
  pose proof (heights_ordered (element p) (numRows p) (containerHeight p))
    as Hord.
  pose proof (heights_floor (element p) (numRows p) (containerHeight p))
    as Hfl.
  rewrite <- Hheights in Hord, Hfl. simpl in Hord, Hfl.
  split; [exact Hord |]. split; [exact Hfl |].
  unfold initialHeightFloor.
  destruct (Js.asTruthy (containerHeight p)) as [c |] eqn:Hc.
  - destruct (asTruthy_inv _ _ Hc) as (Hsome & _ & _).
    rewrite MIN_TABLE_HEIGHT_value.
    destruct (Z_lt_le_dec c 73) as [Hlt | Hge].
    + right. exists c. repeat split; [exact Hsome | exact Hlt | lia].
    + left. lia.
  - left. reflexivity.
Qed.

(** C2 as stated fails: in a bounded container 50 pixels high, a table of
    five rows gets the initial height 50, below the minimum 73. *)
Lemma initialHeight_between_counterexample :
  0 <= numRows lowContainer
  /\ Bounds.initialHeight (computeBounds lowContainer) = 50
  /\ ~ (Bounds.initialHeight (computeBounds lowContainer)
          <= Bounds.maxHeight (computeBounds lowContainer)
        /\ 73 <= Bounds.initialHeight (computeBounds lowContainer)).
Proof.
  split; [simpl; lia |]. split; [reflexivity |].
  intros [_ H]. vm_compute in H. apply H. reflexivity.
Qed.

(** C3.  With a container height [c] and no configured height, the initial
    height and the maximum height are both [min naturalMaxHeight c]. *)
Theorem bounded_unconfigured_fills (p : Props) (c : Z) :
  containerHeight p = Some c ->
  c <> 0 ->
  Js.truthy (height (element p)) = false ->
  let b := computeBounds p in
  Bounds.initialHeight b = Bounds.maxHeight b
  /\ Bounds.maxHeight b
     = Z.min (naturalMaxHeight (element p) (numRows p)) c.
Proof.
  intros Hc Hnz Hh b. subst b. bounds_of p.
  assert (Js.asTruthy (containerHeight p) = Some c) as Hc'
      by (rewrite Hc; apply asTruthy_Some; exact Hnz).
  rewrite (heights_bounded _ _ _ _ Hh Hc') in Hheights.
  injection Hheights as Hi Hm. rewrite Hi, Hm. auto.
Qed.

Lemma bounded_unconfigured_fills_witness :
  containerHeight scenarioD = Some 600
  /\ 600 <> 0
  /\ Js.truthy (height (element scenarioD)) = false
  /\ Bounds.initialHeight (computeBounds scenarioD) = 213
  /\ Bounds.maxHeight (computeBounds scenarioD) = 213.
Proof.
  assert (Hc : containerHeight scenarioD = Some 600) by reflexivity.
  assert (Hnz : 600 <> 0) by discriminate.
  assert (Hh : Js.truthy (height (element scenarioD)) = false)
    by reflexivity.
  pose proof (bounded_unconfigured_fills scenarioD 600 Hc Hnz Hh) as [Hi Hm].
  split; [exact Hc |]. split; [exact Hnz |]. split; [exact Hh |].
  split; [exact (eq_trans Hi Hm) | exact Hm].
Defined.

(** C6.  Without [useContainerWidth] and with a configured width [w], the
    initial width is [min (max w 38) containerWidth] and the maximum width
    is [min (max w maxWidth) containerWidth], where [maxWidth] on the right
    is its value before the update, the container width; a configured
    width above the container width gives the container width. *)
Theorem configured_width_clamped (p : Props) (w : Z) :
  useContainerWidth (element p) = false ->
  width (element p) = Some w ->
  w <> 0 ->
  let b := computeBounds p in
  Bounds.initialWidth b = Some (Z.min (Z.max w 38) (containerWidth p))
  /\ Bounds.maxWidth b
     = Z.min (Z.max w (containerWidth p)) (containerWidth p)
  /\ (containerWidth p < w ->
      Bounds.initialWidth b = Some (containerWidth p)).
Proof.
  intros Hu Hw Hnz b. subst b. bounds_of p.
  unfold widths in Hwidths.
  rewrite Hu, Hw, (asTruthy_Some _ Hnz) in Hwidths.
  injection Hwidths as Hi Hm. rewrite Hi, Hm, MIN_TABLE_WIDTH_value.
  split; [reflexivity |]. split; [reflexivity |].
  intros Hlt. f_equal. lia.
Qed.

Lemma configured_width_clamped_witness :
  useContainerWidth (element wideElement) = false
  /\ width (element wideElement) = Some 1000
  /\ 1000 <> 0
  /\ containerWidth wideElement < 1000
  /\ Bounds.initialWidth (computeBounds wideElement) = Some 800
  /\ Bounds.maxWidth (computeBounds wideElement) = 800.
Proof.
  assert (Hu : useContainerWidth (element wideElement) = false)
    by reflexivity.
  assert (Hw : width (element wideElement) = Some 1000) by reflexivity.
  assert (Hnz : 1000 <> 0) by discriminate.
  assert (Hlt : containerWidth wideElement < 1000) by reflexivity.
  pose proof (configured_width_clamped wideElement 1000 Hu Hw Hnz)
    as (_ & Hm & Hi).
  split; [exact Hu |]. split; [exact Hw |]. split; [exact Hnz |].
  split; [exact Hlt |]. split; [exact (Hi Hlt) | exact Hm].
Defined.

(** C9.  Whatever the input, the maximum width the hook returns is the
    container width: the update in the configured-width branch changes
    nothing. *)
Theorem maxWidth_is_containerWidth (p : Props) (s : ResizableSize.t) :
  Bounds.maxWidth (computeBounds p) = containerWidth p
  /\ AutoSizerReturn.maxWidth (useTableSizer p s) = containerWidth p.
Proof.
  bounds_of p.
  pose proof (widths_maxWidth (element p) (containerWidth p)) as Hmw.
  rewrite <- Hwidths in Hmw. simpl in Hmw.
  split; [exact Hmw | exact Hmw].
Qed.

(* ------------------------------------------------------------------ *)
(** ** The layout effects *)

Lemma truthyRef_mounted {A : Type} (r : option A) :
  r <> None -> Js.truthyRef r = true.
Proof. destruct r; [reflexivity | contradiction]. Qed.

Lemma truthyBool_not_true (v : option bool) :
  v <> Some true -> Js.truthyBool v = false.
Proof. destruct v as [[|] |]; simpl; congruence. Qed.

Lemma isFill_spec (v : SizeValue) : isFill v = true <-> v = Css FILL.
Proof.
  destruct v as [n | t]; simpl.
  - split; discriminate.
  - rewrite String.eqb_eq. split; [intros -> | intros [= ->]]; reflexivity.
Qed.

Lemma stretchColumns_spec (e : ArrowProto.t) :
  stretchColumns e
  = (useContainerWidth e
     || match width e with Some w => 0 <? w | None => false end).
Proof. unfold stretchColumns. destruct (width e); reflexivity. Qed.

Lemma maxHeight_under_container (p : Props) (c : Z) :
  containerHeight p = Some c -> c <> 0 ->
  Bounds.maxHeight (computeBounds p) <= c.
Proof.
  intros Hc Hnz. bounds_of p.
  assert (Js.asTruthy (containerHeight p) = Some c) as Hc'
      by (rewrite Hc; apply asTruthy_Some; exact Hnz).
  destruct (Js.asTruthy (height (element p))) as [h |] eqn:Hh.
  - rewrite (heights_configured_bounded _ _ _ _ _ Hh Hc') in Hheights.
    injection Hheights as _ Hm. rewrite Hm. lia.
  - rewrite (heights_bounded _ _ _ _ (asTruthy_None _ Hh) Hc') in Hheights.
    injection Hheights as _ Hm. rewrite Hm. lia.
Qed.

(** [initialWidth || "100%"] is [initialWidth ?? "100%"] as long as the
    container width is positive. *)
Lemma orFill_initialWidth (p : Props) :
  0 < containerWidth p ->
  orFill (Bounds.initialWidth (computeBounds p))
  = match Bounds.initialWidth (computeBounds p) with
    | Some w => Px w
    | None => Css FILL
    end.
Proof.
  intros Hcw. bounds_of p.
  pose proof (widths_initialWidth_nonzero (element p) (containerWidth p))
    as Hnz.
  rewrite <- Hwidths in Hnz. simpl in Hnz.
  destruct (Bounds.initialWidth (computeBounds p)) as [w |]; [| reflexivity].
  unfold orFill. rewrite (asTruthy_Some w (Hnz w Hcw eq_refl)). reflexivity.
Qed.

(** At container width zero the two differ: the initial width is defined
    and zero, and the state gets the sentinel. *)
Remark orFill_zero_width :
  Bounds.initialWidth (computeBounds zeroWidthContainer) = Some 0
  /\ ResizableSize.width (initialSize zeroWidthContainer) = Css FILL.
Proof. split; reflexivity. Qed.

(** C4, as the code has it.  On a mounted table (the ref is not null) with
    full screen on, the full-screen effect sets the size to the maximum
    width, or to the sentinel width when the columns are not stretched, and
    to the maximum height; columns are stretched when [useContainerWidth]
    holds or a positive width is configured.  Both maxima are those of this
    render: the width is the container width and the height is within the
    container height. *)
Theorem fullScreen_on_sets_maxima (p : Props) (s : ResizableSize.t) :
  current (resizableRef p) <> None ->
  isFullScreen p = Some true ->
  let b := computeBounds p in
  let stretch :=
    useContainerWidth (element p)
    || match width (element p) with Some w => 0 <? w | None => false end in
  settle fullScreenEffect p s
  = {| ResizableSize.width :=
         if stretch then Px (Bounds.maxWidth b) else Css "100%";
       ResizableSize.height := Px (Bounds.maxHeight b) |}
  /\ Bounds.maxWidth b = containerWidth p
  /\ (forall c, containerHeight p = Some c -> c <> 0 ->
                Bounds.maxHeight b <= c).
Proof.
  intros Href Hfs b stretch. subst b stretch.
  split; [| split].
  - apply settle_fires. unfold fullScreenEffect.
    rewrite (truthyRef_mounted _ Href), Hfs, stretchColumns_spec.
    reflexivity.
  - bounds_of p.
    pose proof (widths_maxWidth (element p) (containerWidth p)) as Hmw.
    rewrite <- Hwidths in Hmw. exact Hmw.
  - intros c. apply maxHeight_under_container.
Qed.

Lemma fullScreen_on_sets_maxima_witness :
  current (resizableRef scenarioD) <> None
  /\ isFullScreen scenarioD = Some true
  /\ settle fullScreenEffect scenarioD fillSize
     = ResizableSize.mk (Px 1200) (Px 213).
Proof.
  assert (Href : current (resizableRef scenarioD) <> None)
    by (simpl; discriminate).
  assert (Hfs : isFullScreen scenarioD = Some true) by reflexivity.
  split; [exact Href |]. split; [exact Hfs |].
  exact (proj1 (fullScreen_on_sets_maxima scenarioD fillSize Href Hfs)).
Defined.

(** C4 as stated fails: before the view is mounted the effect returns
    without a call to the setter, and a size of 640 x 300 stays where the
    claim has 1200 x 213. *)
Lemma fullScreen_on_counterexample :
  isFullScreen scenarioD_unmounted = Some true
  /\ settle fullScreenEffect scenarioD_unmounted draggedSize = draggedSize
  /\ settle fullScreenEffect scenarioD_unmounted draggedSize
     <> {| ResizableSize.width :=
             if useContainerWidth (element scenarioD_unmounted)
                || match width (element scenarioD_unmounted) with
                   | Some w => 0 <? w
                   | None => false
                   end
             then Px (Bounds.maxWidth (computeBounds scenarioD_unmounted))
             else Css "100%";
           ResizableSize.height :=
             Px (Bounds.maxHeight (computeBounds scenarioD_unmounted)) |}.
Proof.
  split; [reflexivity |]. split; [reflexivity |].
  vm_compute. discriminate.
Qed.

(** C5, as the code has it.  On a mounted table with full screen off, the
    full-screen effect sets the size to the one the state started from:
    the initial height, and the initial width unless that is undefined or
    zero, in which case the sentinel.  For a positive container width the
    initial width is never zero, so the width is the initial width if
    defined and the sentinel otherwise.  The size held in full screen is
    not kept. *)
Theorem fullScreen_off_restores_initial (p : Props) (s : ResizableSize.t) :
  current (resizableRef p) <> None ->
  isFullScreen p <> Some true ->
  let b := computeBounds p in
  settle fullScreenEffect p s = initialSize p
  /\ settle fullScreenEffect p s
     = {| ResizableSize.width :=
            match Bounds.initialWidth b with
            | Some w => if w =? 0 then Css "100%" else Px w
            | None => Css "100%"
            end;
          ResizableSize.height := Px (Bounds.initialHeight b) |}
  /\ (0 < containerWidth p ->
      settle fullScreenEffect p s
      = {| ResizableSize.width :=
             match Bounds.initialWidth b with
             | Some w => Px w
             | None => Css "100%"
             end;
           ResizableSize.height := Px (Bounds.initialHeight b) |}).
Proof.
  intros Href Hfs b. subst b.
  assert (settle fullScreenEffect p s = initialSize p) as Hinit.
  { apply settle_fires. unfold fullScreenEffect, initialSize.
    rewrite (truthyRef_mounted _ Href), (truthyBool_not_true _ Hfs).
    reflexivity. }
  split; [exact Hinit |]. rewrite Hinit. unfold initialSize. split.
  - unfold orFill, Js.asTruthy.
    destruct (Bounds.initialWidth (computeBounds p)) as [w |];
      [destruct (w =? 0) |]; reflexivity.
  - intros Hcw. rewrite (orFill_initialWidth p Hcw). reflexivity.
Qed.

Lemma fullScreen_off_restores_initial_witness :
  current (resizableRef tallNormal) <> None
  /\ isFullScreen tallNormal <> Some true
  /\ 0 < containerWidth tallNormal
  /\ settle fullScreenEffect tallFullScreen (initialSize tallNormal)
     = tallFullSize
  /\ settle fullScreenEffect tallNormal tallFullSize
     = ResizableSize.mk (Px 800) (Px 400).
Proof.
  assert (Href : current (resizableRef tallNormal) <> None)
    by (simpl; discriminate).
  assert (Hfs : isFullScreen tallNormal <> Some true)
    by (simpl; discriminate).
  assert (Hcw : 0 < containerWidth tallNormal) by reflexivity.
  split; [exact Href |]. split; [exact Hfs |]. split; [exact Hcw |].
  split; [reflexivity |].
  exact (proj2 (proj2 (fullScreen_off_restores_initial
                         tallNormal tallFullSize Href Hfs))
               Hcw).
Defined.

(** C5 as stated fails: before the view is mounted the effect returns
    without a call to the setter, and the full-screen size 1200 x 600
    stays where the claim has 800 x 400. *)
Lemma fullScreen_off_counterexample :
  isFullScreen tallNormal_unmounted = Some false
  /\ settle fullScreenEffect tallNormal_unmounted tallFullSize
     = tallFullSize
  /\ settle fullScreenEffect tallNormal_unmounted tallFullSize
     <> {| ResizableSize.width :=
             match Bounds.initialWidth (computeBounds tallNormal_unmounted)
             with
             | Some w => Px w
             | None => Css "100%"
             end;
           ResizableSize.height :=
             Px (Bounds.initialHeight
                   (computeBounds tallNormal_unmounted)) |}.
Proof.
  split; [reflexivity |]. split; [reflexivity |].
  vm_compute. discriminate.
Qed.

(** C7.  The container-width effect calls the setter only when
    [useContainerWidth] holds and the current width is the sentinel, and
    the size it sets is the container width with the height carried over;
    on a mounted table it does fire under these two conditions; on a
    numeric width it leaves the size as it is. *)
Theorem containerWidth_rule_guard (p : Props) (s : ResizableSize.t) :
  (forall s', containerWidthEffect p s = Some s' ->
     useContainerWidth (element p) = true
     /\ ResizableSize.width s = Css "100%"
     /\ ResizableSize.width s' = Px (containerWidth p)
     /\ ResizableSize.height s' = ResizableSize.height s)
  /\ (current (resizableRef p) <> None ->
      useContainerWidth (element p) = true ->
      ResizableSize.width s = Css "100%" ->
      settle containerWidthEffect p s
      = {| ResizableSize.width := Px (containerWidth p);
           ResizableSize.height := ResizableSize.height s |})
  /\ (forall n, ResizableSize.width s = Px n ->
      containerWidthEffect p s = None
      /\ settle containerWidthEffect p s = s).
Proof.
  split; [| split].
  - intros s'. unfold containerWidthEffect.
    destruct (Js.truthyRef (current (resizableRef p))); simpl;
      [| discriminate].
    destruct (useContainerWidth (element p)); simpl; [| discriminate].
    destruct (isFill (ResizableSize.width s)) eqn:Hfill; [| discriminate].
    intros [= <-]. simpl.
    apply isFill_spec in Hfill. auto.
  - intros Href Hu Hw. apply settle_fires. unfold containerWidthEffect.
    rewrite (truthyRef_mounted _ Href), Hu, Hw. reflexivity.
  - intros n Hw.
    assert (containerWidthEffect p s = None) as Hidle.
    { unfold containerWidthEffect. rewrite Hw. simpl.
      rewrite andb_false_r. reflexivity. }
    split; [exact Hidle | apply settle_idle; exact Hidle].
Qed.

Lemma containerWidth_rule_guard_witness :
  (current (resizableRef scenarioE) <> None
   /\ useContainerWidth (element scenarioE) = true
   /\ ResizableSize.width fillSize = Css "100%"
   /\ settle containerWidthEffect scenarioE fillSize
      = ResizableSize.mk (Px 1200) (Px 213))
  /\ (ResizableSize.width draggedSize = Px 640
      /\ settle containerWidthEffect scenarioE draggedSize = draggedSize).
Proof.
  assert (Href : current (resizableRef scenarioE) <> None)
    by (simpl; discriminate).
  assert (Hu : useContainerWidth (element scenarioE) = true) by reflexivity.
  assert (Hw : ResizableSize.width fillSize = Css "100%") by reflexivity.
  assert (Hn : ResizableSize.width draggedSize = Px 640) by reflexivity.
  split.
  - split; [exact Href |]. split; [exact Hu |]. split; [exact Hw |].
    exact (proj1 (proj2 (containerWidth_rule_guard scenarioE fillSize))
                 Href Hu Hw).
  - split; [exact Hn |].
    exact (proj2 (proj2 (proj2 (containerWidth_rule_guard
                                  scenarioE draggedSize)) 640 Hn)).
Defined.

(** An effect is idempotent when running it on its own result, under the
    same props, changes nothing further. *)
Lemma idempotent_when_stable (e : Effect) (p : Props)
                             (s : ResizableSize.t) :
  (forall s', e p s = Some s' -> e p s' = Some s' \/ e p s' = None) ->
  settle e p (settle e p s) = settle e p s.
Proof.
  intros Hstable. unfold settle at 2 3.
  destruct (e p s) as [s' |] eqn:Hfire.
  - unfold settle. destruct (Hstable s' eq_refl) as [-> | ->]; reflexivity.
  - unfold settle. rewrite Hfire. reflexivity.
Qed.

(** C8.  Each of the three effects is idempotent: run twice under the same
    props it leaves the size it left after the first run.  In particular
    the height after two runs of the row-count effect is the height after
    one. *)
Theorem effects_idempotent (p : Props) (s : ResizableSize.t) :
  settle containerWidthEffect p (settle containerWidthEffect p s)
  = settle containerWidthEffect p s
  /\ settle numRowsEffect p (settle numRowsEffect p s)
     = settle numRowsEffect p s
  /\ settle fullScreenEffect p (settle fullScreenEffect p s)
     = settle fullScreenEffect p s
  /\ ResizableSize.height (settle numRowsEffect p (settle numRowsEffect p s))
     = ResizableSize.height (settle numRowsEffect p s).
Proof.
  assert (Hrows : settle numRowsEffect p (settle numRowsEffect p s)
                  = settle numRowsEffect p s).
  { apply idempotent_when_stable. intros s'. unfold numRowsEffect.
    destruct (Js.truthyRef (current (resizableRef p))); [| discriminate].
    intros [= <-]. left. reflexivity. }
  split; [| split; [exact Hrows | split; [| rewrite Hrows; reflexivity]]].
  - apply idempotent_when_stable. intros s'. unfold containerWidthEffect.
    destruct (Js.truthyRef (current (resizableRef p))
              && useContainerWidth (element p)); simpl; [| discriminate].
    destruct (isFill (ResizableSize.width s)); [| discriminate].
    intros [= <-]. right. reflexivity.
  - apply idempotent_when_stable. intros s'. unfold fullScreenEffect.
    destruct (Js.truthyRef (current (resizableRef p))); [| discriminate].
    intros H. left. exact H.
Qed.

(** C10.  While the ref is null no effect calls the setter, whatever the
    props (full screen on or off included), so the size stays as it is
    after any one of them and after a whole commit. *)
Theorem unmounted_effects_idle (p : Props) (s : ResizableSize.t) :
  current (resizableRef p) = None ->
  (containerWidthEffect p s = None
   /\ numRowsEffect p s = None
   /\ fullScreenEffect p s = None)
  /\ (settle containerWidthEffect p s = s
      /\ settle numRowsEffect p s = s
      /\ settle fullScreenEffect p s = s)
  /\ (forall d, commit d p s = s).
Proof.
  intros Href.
  assert (containerWidthEffect p s = None) as Hc
      by (unfold containerWidthEffect; rewrite Href; reflexivity).
  assert (numRowsEffect p s = None) as Hn
      by (unfold numRowsEffect; rewrite Href; reflexivity).
  assert (fullScreenEffect p s = None) as Hf
      by (unfold fullScreenEffect; rewrite Href; reflexivity).
  split; [auto |]. split.
  - unfold settle. rewrite Hc, Hn, Hf. auto.
  - intros [cw nr fs]. unfold commit. simpl.
    rewrite Hc, Hn, Hf. destruct cw, nr, fs; reflexivity.
Qed.

Lemma unmounted_effects_idle_witness :
  current (resizableRef scenarioD_unmounted) = None
  /\ settle fullScreenEffect scenarioD_unmounted draggedSize = draggedSize
  /\ commit (mkChanged true true true) scenarioD_unmounted draggedSize
     = draggedSize.
Proof.
  assert (Href : current (resizableRef scenarioD_unmounted) = None)
    by reflexivity.
  pose proof (unmounted_effects_idle scenarioD_unmounted draggedSize Href)
    as (_ & (_ & _ & Hf) & Hcommit).
  split; [exact Href |]. split; [exact Hf | exact (Hcommit _)].
Defined.

(** X15.  When the full-screen dependency changed on a mounted table, its
    effect runs last and decides the next size, whatever the other two
    did. *)
Lemma commit_fullScreen_wins (d : Changed) (p : Props)
                             (s : ResizableSize.t) :
  current (resizableRef p) <> None ->
  isFullScreenChanged d = true ->
  commit d p s = settle fullScreenEffect p s.
Proof.
  intros Href Hd. unfold commit, settle. rewrite Hd.
  unfold fullScreenEffect. rewrite (truthyRef_mounted _ Href).
  destruct (Js.truthyBool (isFullScreen p)); reflexivity.
Qed.

(** When a commit runs both the container-width effect and the row-count
    effect, the row-count effect's call comes later and carries the width
    of the render, so the container width set first is lost. *)
Remark commit_numRows_overrides_width :
  settle containerWidthEffect scenarioE fillSize
  = ResizableSize.mk (Px 1200) (Px 213)
  /\ commit (mkChanged true true false) scenarioE fillSize = fillSize.
Proof. split; reflexivity. Qed.

(* ------------------------------------------------------------------ *)
(** ** Further properties of the size policy *)

Lemma initialHeight_fst (p : Props) :
  Bounds.initialHeight (computeBounds p)
  = fst (heights (element p) (numRows p) (containerHeight p)).
Proof. rewrite <- computeBounds_heights. reflexivity. Qed.

Lemma maxHeight_snd (p : Props) :
  Bounds.maxHeight (computeBounds p)
  = snd (heights (element p) (numRows p) (containerHeight p)).
Proof. rewrite <- computeBounds_heights. reflexivity. Qed.

Lemma initialWidth_fst (p : Props) :
  Bounds.initialWidth (computeBounds p)
  = fst (widths (element p) (containerWidth p)).
Proof. rewrite <- computeBounds_widths. reflexivity. Qed.

Lemma maxWidth_snd (p : Props) :
  Bounds.maxWidth (computeBounds p)
  = snd (widths (element p) (containerWidth p)).
Proof. rewrite <- computeBounds_widths. reflexivity. Qed.

Lemma naturalMaxHeight_monotone (e : ArrowProto.t) (n n' : Z) :
  n <= n' -> naturalMaxHeight e n <= naturalMaxHeight e n'.
Proof.
  intros Hn. unfold naturalMaxHeight, MIN_TABLE_HEIGHT, ROW_HEIGHT.
  destruct (isDynamic (editingMode e)); lia.
Qed.

Lemma widths_initialWidth_le (e : ArrowProto.t) (cw w : Z) :
  fst (widths e cw) = Some w -> w <= cw.
Proof.
  unfold widths. destruct (useContainerWidth e); simpl.
  - intros [= <-]. lia.
  - destruct (Js.asTruthy (width e)) as [w0 |]; simpl; [| discriminate].
    intros [= <-]. lia.
Qed.

Lemma widths_initialWidth_nonzero' (e : ArrowProto.t) (cw w : Z) :
  cw <> 0 -> fst (widths e cw) = Some w -> w <> 0.
Proof.
  unfold widths, MIN_TABLE_WIDTH, MIN_COLUMN_WIDTH. intros Hcw.
  destruct (useContainerWidth e); simpl.
  - intros [= <-]. exact Hcw.
  - destruct (Js.asTruthy (width e)) as [w0 |]; simpl; [| discriminate].
    intros [= <-]. lia.
Qed.

(** X1.  The minimum height the hook returns is at most the maximum height
    it returns exactly when no container height is in force or the
    container height is at least 73: in a lower container the returned
    range is empty. *)
Theorem returned_height_range (p : Props) (s : ResizableSize.t) :
  let r := useTableSizer p s in
  AutoSizerReturn.minHeight r <= AutoSizerReturn.maxHeight r
  <-> match Js.asTruthy (containerHeight p) with
      | Some c => 73 <= c
      | None => True
      end.
Proof.
  unfold useTableSizer. cbn [AutoSizerReturn.minHeight AutoSizerReturn.maxHeight].
  rewrite maxHeight_snd, MIN_TABLE_HEIGHT_value.
  pose proof (naturalMaxHeight_floor (element p) (numRows p)) as Hfloor.
  rewrite MIN_TABLE_HEIGHT_value in Hfloor.
  destruct (Js.asTruthy (height (element p))) as [h |] eqn:Hh;
    destruct (Js.asTruthy (containerHeight p)) as [c |] eqn:Hc.
  - rewrite (heights_configured_bounded _ _ _ _ _ Hh Hc). simpl. lia.
  - rewrite (heights_configured _ _ _ _ Hh (asTruthy_None _ Hc)).
    simpl. lia.
  - rewrite (heights_bounded _ _ _ _ (asTruthy_None _ Hh) Hc). simpl. lia.
  - rewrite (heights_plain _ _ _ (asTruthy_None _ Hh) (asTruthy_None _ Hc)).
    simpl. lia.
Qed.

(** X2.  A configured height [h] makes the initial height [max h 73] and
    the maximum height [max h naturalMaxHeight], so the maximum never falls
    below [h]; a container height [c] then caps both at [c]. *)
Theorem configured_height_rules (p : Props) (h : Z) :
  height (element p) = Some h ->
  h <> 0 ->
  let b := computeBounds p in
  let natural := naturalMaxHeight (element p) (numRows p) in
  (Js.truthy (containerHeight p) = false ->
   Bounds.initialHeight b = Z.max h 73
   /\ Bounds.maxHeight b = Z.max h natural
   /\ h <= Bounds.maxHeight b)
  /\ (forall c, containerHeight p = Some c -> c <> 0 ->
      Bounds.initialHeight b = Z.min (Z.max h 73) c
      /\ Bounds.maxHeight b = Z.min (Z.max h natural) c).
Proof.
  intros Hh Hnz b natural. subst b natural.
  assert (Js.asTruthy (height (element p)) = Some h) as Hh'
      by (rewrite Hh; apply asTruthy_Some; exact Hnz).
  rewrite initialHeight_fst, maxHeight_snd. split.
  - intros Hc. rewrite (heights_configured _ _ _ _ Hh' Hc). simpl.
    rewrite MIN_TABLE_HEIGHT_value. repeat split; lia.
  - intros c Hc Hcnz.
    assert (Js.asTruthy (containerHeight p) = Some c) as Hc'
        by (rewrite Hc; apply asTruthy_Some; exact Hcnz).
    rewrite (heights_configured_bounded _ _ _ _ _ Hh' Hc'). simpl.
    rewrite MIN_TABLE_HEIGHT_value. split; reflexivity.
Qed.

Lemma configured_height_rules_witness :
  (height (element scenarioC) = Some 500
   /\ 500 <> 0
   /\ Js.truthy (containerHeight scenarioC) = false
   /\ Bounds.initialHeight (computeBounds scenarioC) = 500)
  /\ (height (element configuredInLowContainer) = Some 500
      /\ containerHeight configuredInLowContainer = Some 300
      /\ 300 <> 0
      /\ Bounds.initialHeight (computeBounds configuredInLowContainer) = 300
      /\ Bounds.maxHeight (computeBounds configuredInLowContainer) = 300).
Proof.
  assert (Hnz : 500 <> 0) by discriminate.
  assert (Hcnz : 300 <> 0) by discriminate.
  split.
  - split; [reflexivity |]. split; [exact Hnz |]. split; [reflexivity |].
    exact (proj1 (proj1 (configured_height_rules scenarioC 500 eq_refl Hnz)
                        eq_refl)).
  - split; [reflexivity |]. split; [reflexivity |]. split; [exact Hcnz |].
    exact (proj2 (configured_height_rules configuredInLowContainer 500
                    eq_refl Hnz)
                 300 eq_refl Hcnz).
Defined.

(** X3.  With [useContainerWidth] the initial width is the container
    width whatever width is configured, and the state starts at that many
    pixels; only a container width of zero starts at the sentinel. *)
Theorem useContainerWidth_initial_width (p : Props) :
  useContainerWidth (element p) = true ->
  Bounds.initialWidth (computeBounds p) = Some (containerWidth p)
  /\ (containerWidth p <> 0 ->
      ResizableSize.width (initialSize p) = Px (containerWidth p))
  /\ (containerWidth p = 0 ->
      ResizableSize.width (initialSize p) = Css "100%").
Proof.
  intros Hu.
  assert (Bounds.initialWidth (computeBounds p) = Some (containerWidth p))
    as Hi by (rewrite initialWidth_fst; unfold widths; rewrite Hu;
              reflexivity).
  split; [exact Hi |]. unfold initialSize. simpl. rewrite Hi. split.
  - intros Hnz. unfold orFill. rewrite (asTruthy_Some _ Hnz). reflexivity.
  - intros ->. reflexivity.
Qed.

Lemma useContainerWidth_initial_width_witness :
  useContainerWidth (element fullWidthConfigured) = true
  /\ width (element fullWidthConfigured) = Some 300
  /\ Bounds.initialWidth (computeBounds fullWidthConfigured) = Some 800
  /\ ResizableSize.width (initialSize fullWidthConfigured) = Px 800.
Proof.
  pose proof (useContainerWidth_initial_width fullWidthConfigured eq_refl)
    as (Hi & Hpx & _).
  split; [reflexivity |]. split; [reflexivity |]. split; [exact Hi |].
  apply Hpx. simpl. discriminate.
Defined.

(** X4.  A table with no configured height outside a bounded container
    starts at [min maxHeight 400]: never above 400 pixels, exactly 400
    from eleven rows on, and at its full height up to nine rows. *)
Theorem default_height_cap (p : Props) :
  Js.truthy (height (element p)) = false ->
  Js.truthy (containerHeight p) = false ->
  let b := computeBounds p in
  Bounds.initialHeight b = Z.min (Bounds.maxHeight b) 400
  /\ Bounds.initialHeight b <= 400
  /\ (11 <= numRows p -> Bounds.initialHeight b = 400)
  /\ (numRows p <= 9 -> Bounds.initialHeight b = Bounds.maxHeight b).
Proof.
  intros Hh Hc b. subst b. rewrite initialHeight_fst, maxHeight_snd.
  rewrite (heights_plain _ _ _ Hh Hc). simpl.
  unfold naturalMaxHeight, DEFAULT_TABLE_HEIGHT, MIN_TABLE_HEIGHT, ROW_HEIGHT.
  destruct (isDynamic (editingMode (element p))); repeat split; lia.
Qed.

Lemma default_height_cap_witness :
  Js.truthy (height (element tallNormal)) = false
  /\ Js.truthy (containerHeight tallNormal) = false
  /\ 11 <= numRows tallNormal
  /\ Bounds.maxHeight (computeBounds tallNormal) = 738
  /\ Bounds.initialHeight (computeBounds tallNormal) = 400.
Proof.
  pose proof (default_height_cap tallNormal eq_refl eq_refl)
    as (_ & _ & Hcap & _).
  assert (Hrows : 11 <= numRows tallNormal) by (simpl; lia).
  split; [reflexivity |]. split; [reflexivity |]. split; [exact Hrows |].
  split; [reflexivity | exact (Hcap Hrows)].
Defined.

(** X5.  More rows never shrink the table: for the same element and the
    same container height, the initial height and the maximum height are
    monotone in the number of rows. *)
Theorem heights_monotone_in_rows (p p' : Props) :
  element p = element p' ->
  containerHeight p = containerHeight p' ->
  numRows p <= numRows p' ->
  Bounds.initialHeight (computeBounds p)
    <= Bounds.initialHeight (computeBounds p')
  /\ Bounds.maxHeight (computeBounds p) <= Bounds.maxHeight (computeBounds p').
Proof.
  intros He Hc Hn. rewrite !initialHeight_fst, !maxHeight_snd.
  rewrite <- He, <- Hc.
  pose proof (naturalMaxHeight_monotone (element p) _ _ Hn) as Hmono.
  destruct (Js.asTruthy (height (element p))) as [h |] eqn:Hh;
    destruct (Js.asTruthy (containerHeight p)) as [c |] eqn:Hch.
  - rewrite (heights_configured_bounded _ (numRows p) _ _ _ Hh Hch),
            (heights_configured_bounded _ (numRows p') _ _ _ Hh Hch).
    simpl. lia.
  - rewrite (heights_configured _ (numRows p) _ _ Hh (asTruthy_None _ Hch)),
            (heights_configured _ (numRows p') _ _ Hh (asTruthy_None _ Hch)).
    simpl. lia.
  - rewrite (heights_bounded _ (numRows p) _ _ (asTruthy_None _ Hh) Hch),
            (heights_bounded _ (numRows p') _ _ (asTruthy_None _ Hh) Hch).
    simpl. lia.
  - rewrite (heights_plain _ (numRows p) _ (asTruthy_None _ Hh)
                           (asTruthy_None _ Hch)),
            (heights_plain _ (numRows p') _ (asTruthy_None _ Hh)
                           (asTruthy_None _ Hch)).
    simpl. unfold DEFAULT_TABLE_HEIGHT. lia.
Qed.

Lemma heights_monotone_in_rows_witness :
  element scenarioE = element tallNormal
  /\ containerHeight scenarioE = containerHeight tallNormal
  /\ numRows scenarioE <= numRows tallNormal
  /\ Bounds.initialHeight (computeBounds scenarioE)
       <= Bounds.initialHeight (computeBounds tallNormal)
  /\ Bounds.maxHeight (computeBounds scenarioE)
       <= Bounds.maxHeight (computeBounds tallNormal).
Proof.
  assert (Hn : numRows scenarioE <= numRows tallNormal) by (simpl; lia).
  split; [reflexivity |]. split; [reflexivity |]. split; [exact Hn |].
  exact (heights_monotone_in_rows scenarioE tallNormal eq_refl eq_refl Hn).
Defined.

(** X6.  A defined initial width never exceeds the maximum width; it is at
    least the minimum table width 38 when the container is that wide, and
    it is the container width itself in a narrower container. *)
Theorem initialWidth_within (p : Props) (w : Z) :
  Bounds.initialWidth (computeBounds p) = Some w ->
  w <= Bounds.maxWidth (computeBounds p)
  /\ (38 <= containerWidth p -> 38 <= w)
  /\ (containerWidth p < 38 -> w = containerWidth p).
Proof.
  rewrite initialWidth_fst, maxWidth_snd, widths_maxWidth.
  unfold widths, MIN_TABLE_WIDTH, MIN_COLUMN_WIDTH.
  destruct (useContainerWidth (element p)); simpl.
  - intros [= <-]. repeat split; lia.
  - destruct (Js.asTruthy (width (element p))) as [w0 |]; simpl;
      [| discriminate].
    intros [= <-]. repeat split; lia.
Qed.

Lemma initialWidth_within_witness :
  Bounds.initialWidth (computeBounds wideElement) = Some 800
  /\ 800 <= Bounds.maxWidth (computeBounds wideElement)
  /\ 38 <= 800.
Proof.
  pose proof (initialWidth_within wideElement 800 eq_refl) as (Hle & Hmin & _).
  split; [reflexivity |]. split; [exact Hle |].
  apply Hmin. simpl. lia.
Defined.

(** X7.  For a container width other than zero, the state starts at the
    sentinel width exactly when [useContainerWidth] is off and no width is
    configured (undefined or zero). *)
Theorem initial_width_sentinel_iff (p : Props) :
  containerWidth p <> 0 ->
  ResizableSize.width (initialSize p) = Css "100%"
  <-> (useContainerWidth (element p) = false
       /\ Js.truthy (width (element p)) = false).
Proof.
  intros Hcw. unfold initialSize. simpl. rewrite initialWidth_fst.
  pose proof (widths_initialWidth_nonzero' (element p) (containerWidth p))
    as Hnz.
  revert Hnz. unfold widths.
  destruct (useContainerWidth (element p)); simpl.
  - intros Hnz. unfold orFill.
    rewrite (asTruthy_Some _ (Hnz _ Hcw eq_refl)).
    split; [discriminate | intros [H _]; discriminate].
  - destruct (Js.asTruthy (width (element p))) as [w0 |] eqn:Hw; simpl.
    + intros Hnz. unfold orFill.
      rewrite (asTruthy_Some _ (Hnz _ Hcw eq_refl)).
      destruct (asTruthy_inv _ _ Hw) as (_ & _ & Ht).
      split; [discriminate | intros [_ H]; congruence].
    + intros _. split; [| reflexivity].
      intros _. split; [reflexivity | exact (asTruthy_None _ Hw)].
Qed.

Lemma initial_width_sentinel_iff_witness :
  containerWidth scenarioA <> 0
  /\ ResizableSize.width (initialSize scenarioA) = Css "100%"
  /\ useContainerWidth (element scenarioA) = false
  /\ Js.truthy (width (element scenarioA)) = false.
Proof.
  assert (Hcw : containerWidth scenarioA <> 0) by (simpl; discriminate).
  split; [exact Hcw |]. split; [reflexivity |].
  exact (proj1 (initial_width_sentinel_iff scenarioA Hcw) eq_refl).
Defined.

(** X8.  An empty table is as high as the minimum, 73 pixels, in every
    edit mode, the extra row of dynamic editing included; from one row on
    the minimum plays no part and the height is the row formula itself. *)
Theorem naturalMaxHeight_empty_and_beyond (e : ArrowProto.t) (n : Z) :
  naturalMaxHeight e 0 = 73
  /\ (1 <= n ->
      naturalMaxHeight e n
      = (n + 1) * 35 + 3
        + match editingMode e with DYNAMIC => 35 | _ => 0 end).
Proof.
  unfold naturalMaxHeight, MIN_TABLE_HEIGHT, ROW_HEIGHT.
  destruct (editingMode e); simpl isDynamic; cbv iota; split;
    try reflexivity; intros Hn; lia.
Qed.

Lemma naturalMaxHeight_empty_and_beyond_witness :
  naturalMaxHeight (element oneRowDynamic) 0 = 73
  /\ 1 <= numRows oneRowDynamic
  /\ naturalMaxHeight (element oneRowDynamic) (numRows oneRowDynamic) = 108.
Proof.
  assert (Hn : 1 <= numRows oneRowDynamic) by (simpl; lia).
  pose proof (naturalMaxHeight_empty_and_beyond
                (element oneRowDynamic) (numRows oneRowDynamic))
    as [Hzero Hrows].
  split; [exact Hzero |]. split; [exact Hn | exact (Hrows Hn)].
Defined.

(** X9.  A height, a width or a container height of zero counts as not
    given: the policy computes what it computes without it. *)
Theorem zero_counts_as_unset (m : EditingMode) (h w : option Z) (u : bool)
                             (e : ArrowProto.t) (n cw : Z)
                             (ch : option Z) :
  heights (ArrowProto.mk m (Some 0) w u) n ch
  = heights (ArrowProto.mk m None w u) n ch
  /\ heights e n (Some 0) = heights e n None
  /\ widths (ArrowProto.mk m h (Some 0) u) cw
     = widths (ArrowProto.mk m h None u) cw.
Proof. repeat split; reflexivity. Qed.

(* ------------------------------------------------------------------ *)
(** ** Further properties of the layout effects *)

Lemma commit_cases (d : Changed) (p : Props) (s : ResizableSize.t) :
  commit d p s = s
  \/ commit d p s = settle containerWidthEffect p s
  \/ commit d p s = settle numRowsEffect p s
  \/ commit d p s = settle fullScreenEffect p s.
Proof.
  unfold commit, settle.
  destruct d as [[|] [|] [|]]; simpl;
    destruct (containerWidthEffect p s), (numRowsEffect p s),
             (fullScreenEffect p s); auto.
Qed.

Lemma orFill_within (p : Props) :
  orFill (Bounds.initialWidth (computeBounds p)) = Css FILL
  \/ exists w, orFill (Bounds.initialWidth (computeBounds p)) = Px w
               /\ w <= containerWidth p.
Proof.
  pose proof (widths_initialWidth_le (element p) (containerWidth p)) as Hle.
  rewrite <- initialWidth_fst in Hle. unfold orFill, Js.asTruthy.
  destruct (Bounds.initialWidth (computeBounds p)) as [w |]; [| auto].
  destruct (w =? 0); [auto |]. right. exists w. auto.
Qed.

Lemma initialHeight_le_maxHeight (p : Props) :
  Bounds.initialHeight (computeBounds p) <= Bounds.maxHeight (computeBounds p).
Proof. rewrite initialHeight_fst, maxHeight_snd. apply heights_ordered. Qed.

(** X10.  On a mounted table the row-count effect keeps the width and
    resets the height to the initial height, dropping a height set by a
    manual resize; with no configured height and no container height that
    is [min (max ((rows + 1) * 35 + 3 + dynamic row) 73) 400]. *)
Theorem numRows_effect_resets_height (p : Props) (s : ResizableSize.t) :
  current (resizableRef p) <> None ->
  settle numRowsEffect p s
  = {| ResizableSize.width := ResizableSize.width s;
       ResizableSize.height := Px (Bounds.initialHeight (computeBounds p)) |}
  /\ (Js.truthy (height (element p)) = false ->
      Js.truthy (containerHeight p) = false ->
      ResizableSize.height (settle numRowsEffect p s)
      = Px (Z.min
              (Z.max ((numRows p + 1) * 35 + 3
                      + match editingMode (element p) with
                        | DYNAMIC => 35
                        | _ => 0
                        end)
                     73)
              400)).
Proof.
  intros Href.
  assert (settle numRowsEffect p s
          = {| ResizableSize.width := ResizableSize.width s;
               ResizableSize.height :=
                 Px (Bounds.initialHeight (computeBounds p)) |}) as Hset.
  { apply settle_fires. unfold numRowsEffect.
    rewrite (truthyRef_mounted _ Href). reflexivity. }
  split; [exact Hset |].
  intros Hh Hc. rewrite Hset. simpl. f_equal.
  rewrite initialHeight_fst, (heights_plain _ _ _ Hh Hc). simpl.
  unfold naturalMaxHeight, DEFAULT_TABLE_HEIGHT, MIN_TABLE_HEIGHT, ROW_HEIGHT.
  destruct (editingMode (element p)); simpl isDynamic; cbv iota; lia.
Qed.

Lemma numRows_effect_resets_height_witness :
  current (resizableRef scenarioA) <> None
  /\ Js.truthy (height (element scenarioA)) = false
  /\ Js.truthy (containerHeight scenarioA) = false
  /\ settle numRowsEffect scenarioA draggedSize
     = ResizableSize.mk (Px 640) (Px 213)
  /\ ResizableSize.height (settle numRowsEffect scenarioA draggedSize)
     = Px 213.
Proof.
  assert (Href : current (resizableRef scenarioA) <> None)
    by (simpl; discriminate).
  pose proof (numRows_effect_resets_height scenarioA draggedSize Href)
    as [Hset Hclosed].
  split; [exact Href |]. split; [reflexivity |]. split; [reflexivity |].
  split; [exact Hset | exact (Hclosed eq_refl eq_refl)].
Defined.

(** X11.  The state stays within the policy of its render: the initial
    size has a width that is the sentinel or at most the container width
    and a height of at most the maximum height, and each effect and each
    commit under the same props keeps a size that has this. *)
Theorem sizeWithin_invariant (p : Props) :
  sizeWithin p (initialSize p)
  /\ (forall s, sizeWithin p s ->
      sizeWithin p (settle containerWidthEffect p s)
      /\ sizeWithin p (settle numRowsEffect p s)
      /\ sizeWithin p (settle fullScreenEffect p s)
      /\ (forall d, sizeWithin p (commit d p s))).
Proof.
  pose proof (initialHeight_le_maxHeight p) as Hih.
  assert (Hinit : sizeWithin p (initialSize p)).
  { split; [apply orFill_within |]. simpl. eauto. }
  split; [exact Hinit |].
  intros s [Hw Hh].
  assert (Hcw : sizeWithin p (settle containerWidthEffect p s)).
  { unfold settle, containerWidthEffect.
    destruct (Js.truthyRef (current (resizableRef p))
              && useContainerWidth (element p)
              && isFill (ResizableSize.width s)); [| split; assumption].
    split; [| exact Hh]. right. exists (containerWidth p). simpl.
    split; [reflexivity | lia]. }
  assert (Hnr : sizeWithin p (settle numRowsEffect p s)).
  { unfold settle, numRowsEffect.
    destruct (Js.truthyRef (current (resizableRef p))); [| split; assumption].
    split; [exact Hw |]. simpl. eauto. }
  assert (Hfs : sizeWithin p (settle fullScreenEffect p s)).
  { unfold settle, fullScreenEffect.
    destruct (Js.truthyRef (current (resizableRef p))); [| split; assumption].
    destruct (Js.truthyBool (isFullScreen p)); [| exact Hinit].
    split.
    - simpl. destruct (stretchColumns (element p)); [| auto].
      right. exists (Bounds.maxWidth (computeBounds p)).
      split; [reflexivity |].
      rewrite maxWidth_snd, widths_maxWidth. lia.
    - simpl. exists (Bounds.maxHeight (computeBounds p)).
      split; [reflexivity | lia]. }
  repeat split; try assumption.
  - destruct Hcw as [H _]; exact H.
  - destruct Hcw as [_ H]; exact H.
  - destruct Hnr as [H _]; exact H.
  - destruct Hnr as [_ H]; exact H.
  - destruct Hfs as [H _]; exact H.
  - destruct Hfs as [_ H]; exact H.
  - destruct (commit_cases d p s) as [-> | [-> | [-> | ->]]];
      [exact Hw | apply Hcw | apply Hnr | apply Hfs].
  - destruct (commit_cases d p s) as [-> | [-> | [-> | ->]]];
      [exact Hh | apply Hcw | apply Hnr | apply Hfs].
Qed.

Lemma sizeWithin_invariant_witness :
  sizeWithin tallFullScreen (initialSize tallFullScreen)
  /\ sizeWithin tallFullScreen
       (commit (mkChanged true true true) tallFullScreen
               (initialSize tallFullScreen)).
Proof.
  pose proof (sizeWithin_invariant tallFullScreen) as [Hinit Hstep].
  split; [exact Hinit |].
  exact (proj2 (proj2 (proj2 (Hstep _ Hinit))) _).
Defined.

Lemma fullWidth_starts_numeric (p : Props) :
  useContainerWidth (element p) = true ->
  containerWidth p <> 0 ->
  exists w, ResizableSize.width (initialSize p) = Px w.
Proof.
  intros Hu Hnz. exists (containerWidth p). unfold initialSize. simpl.
  rewrite initialWidth_fst. unfold widths. rewrite Hu. simpl.
  unfold orFill. rewrite (asTruthy_Some _ Hnz). reflexivity.
Qed.

(** X12.  A table whose first container width is not zero never has the
    container-width effect fire on its initial size, however the container
    width changes afterwards: with [useContainerWidth] its width starts as
    a number of pixels, not as the sentinel. *)
Theorem containerWidth_effect_idle_on_initial (p p' : Props) :
  containerWidth p <> 0 ->
  useContainerWidth (element p') = useContainerWidth (element p) ->
  containerWidthEffect p' (initialSize p) = None
  /\ settle containerWidthEffect p' (initialSize p) = initialSize p.
Proof.
  intros Hcw Hu.
  assert (containerWidthEffect p' (initialSize p) = None) as Hidle.
  { unfold containerWidthEffect. rewrite Hu.
    destruct (useContainerWidth (element p)) eqn:Hup.
    - destruct (fullWidth_starts_numeric p Hup Hcw) as [w Hw].
      rewrite Hw. simpl. rewrite andb_false_r. reflexivity.
    - rewrite andb_false_r. reflexivity. }
  split; [exact Hidle | apply settle_idle; exact Hidle].
Qed.

Lemma containerWidth_effect_idle_on_initial_witness :
  containerWidth scenarioE <> 0
  /\ useContainerWidth (element tallNormal)
     = useContainerWidth (element scenarioE)
  /\ containerWidth tallNormal = 800
  /\ settle containerWidthEffect tallNormal (initialSize scenarioE)
     = ResizableSize.mk (Px 1200) (Px 213).
Proof.
  assert (Hcw : containerWidth scenarioE <> 0) by (simpl; discriminate).
  split; [exact Hcw |]. split; [reflexivity |]. split; [reflexivity |].
  exact (proj2 (containerWidth_effect_idle_on_initial
                  scenarioE tallNormal Hcw eq_refl)).
Defined.

(** X13.  A table with [useContainerWidth] first rendered in a container
    of width zero starts at the sentinel width, and the container-width
    effect of a later render on the mounted table gives it that render's
    container width and keeps its height. *)
Theorem zero_width_start_catches_up (p p' : Props) :
  useContainerWidth (element p) = true ->
  containerWidth p = 0 ->
  current (resizableRef p') <> None ->
  useContainerWidth (element p') = true ->
  ResizableSize.width (initialSize p) = Css "100%"
  /\ settle containerWidthEffect p' (initialSize p)
     = {| ResizableSize.width := Px (containerWidth p');
          ResizableSize.height :=
            Px (Bounds.initialHeight (computeBounds p)) |}.
Proof.
  intros Hu Hzero Href Hu'.
  assert (ResizableSize.width (initialSize p) = Css FILL) as Hfill.
  { unfold initialSize. simpl. rewrite initialWidth_fst. unfold widths.
    rewrite Hu, Hzero. reflexivity. }
  split; [exact Hfill |].
  apply settle_fires. unfold containerWidthEffect.
  rewrite (truthyRef_mounted _ Href), Hu', Hfill. reflexivity.
Qed.

Lemma zero_width_start_catches_up_witness :
  useContainerWidth (element zeroWidthContainer) = true
  /\ containerWidth zeroWidthContainer = 0
  /\ current (resizableRef scenarioE) <> None
  /\ useContainerWidth (element scenarioE) = true
  /\ settle containerWidthEffect scenarioE (initialSize zeroWidthContainer)
     = ResizableSize.mk (Px 1200) (Px 213).
Proof.
  assert (Href : current (resizableRef scenarioE) <> None)
    by (simpl; discriminate).
  split; [reflexivity |]. split; [reflexivity |]. split; [exact Href |].
  split; [reflexivity |].
  exact (proj2 (zero_width_start_catches_up zeroWidthContainer scenarioE
                  eq_refl eq_refl Href eq_refl)).
Defined.

(** X14.  Once the full-screen effect has run on a mounted table, entering
    full screen or leaving it in a container of width other than zero, the
    container-width effect of any later render with the same
    [useContainerWidth] flag does not fire: the width is a number of
    pixels whenever the flag is set. *)
Theorem containerWidth_effect_idle_after_fullScreen
        (p p' : Props) (s : ResizableSize.t) :
  current (resizableRef p) <> None ->
  isFullScreen p = Some true \/ containerWidth p <> 0 ->
  useContainerWidth (element p') = useContainerWidth (element p) ->
  containerWidthEffect p' (settle fullScreenEffect p s) = None.
Proof.
  intros Href Hcase Hu. unfold containerWidthEffect. rewrite Hu.
  destruct (useContainerWidth (element p)) eqn:Hup;
    [| rewrite andb_false_r; reflexivity].
  assert (exists w, ResizableSize.width (settle fullScreenEffect p s) = Px w)
    as [w Hw].
  { unfold settle, fullScreenEffect. rewrite (truthyRef_mounted _ Href).
    destruct (isFullScreen p) as [[|] |] eqn:Hfs; simpl.
    - unfold stretchColumns. rewrite Hup. simpl. eauto.
    - destruct Hcase as [Hon | Hcw]; [discriminate |].
      apply (fullWidth_starts_numeric p Hup Hcw).
    - destruct Hcase as [Hon | Hcw]; [discriminate |].
      apply (fullWidth_starts_numeric p Hup Hcw). }
  rewrite Hw. simpl. rewrite andb_false_r. reflexivity.
Qed.

Lemma containerWidth_effect_idle_after_fullScreen_witness :
  current (resizableRef scenarioD) <> None
  /\ isFullScreen scenarioD = Some true
  /\ useContainerWidth (element tallNormal)
     = useContainerWidth (element scenarioD)
  /\ containerWidthEffect tallNormal
       (settle fullScreenEffect scenarioD fillSize) = None.
Proof.
  assert (Href : current (resizableRef scenarioD) <> None)
    by (simpl; discriminate).
  split; [exact Href |]. split; [reflexivity |]. split; [reflexivity |].
  exact (containerWidth_effect_idle_after_fullScreen
           scenarioD tallNormal fillSize Href (or_introl eq_refl) eq_refl).
Defined.

Lemma commit_fullScreen_wins_witness :
  current (resizableRef tallFullScreen) <> None
  /\ isFullScreenChanged (mkChanged true true true) = true
  /\ commit (mkChanged true true true) tallFullScreen fillSize
     = ResizableSize.mk (Px 1200) (Px 600).
Proof.
  assert (Href : current (resizableRef tallFullScreen) <> None)
    by (simpl; discriminate).
  split; [exact Href |]. split; [reflexivity |].
  exact (commit_fullScreen_wins (mkChanged true true true) tallFullScreen
           fillSize Href eq_refl).
Defined.

(** X16.  When the row count changed in a commit on a mounted table and
    full screen did not, the next size has the width of the render and the
    initial height, whether or not the container-width effect ran in the
    same commit: a container width it set is overwritten by the later call
    of the row-count effect. *)
Theorem commit_rows_keep_render_width (d : Changed) (p : Props)
                                      (s : ResizableSize.t) :
  current (resizableRef p) <> None ->
  numRowsChanged d = true ->
  isFullScreenChanged d = false ->
  commit d p s
  = {| ResizableSize.width := ResizableSize.width s;
       ResizableSize.height := Px (Bounds.initialHeight (computeBounds p)) |}.
Proof.
  intros Href Hn Hf. unfold commit. rewrite Hn, Hf.
  unfold numRowsEffect. rewrite (truthyRef_mounted _ Href). reflexivity.
Qed.

Lemma commit_rows_keep_render_width_witness :
  current (resizableRef scenarioE) <> None
  /\ settle containerWidthEffect scenarioE fillSize
     = ResizableSize.mk (Px 1200) (Px 213)
  /\ commit (mkChanged true true false) scenarioE fillSize
     = ResizableSize.mk (Css "100%") (Px 213).
Proof.
  assert (Href : current (resizableRef scenarioE) <> None)
    by (simpl; discriminate).
  split; [exact Href |]. split; [reflexivity |].
  exact (commit_rows_keep_render_width (mkChanged true true false) scenarioE
           fillSize Href eq_refl eq_refl).
Defined.
